(** * A shallow embedding of the PyLUSOL wrapper class [LUSOL] (pylusol/lusol.py)

    The class allocates numpy buffers, copies a COO matrix into them
    (1-based), and hands the buffers to the native LUSOL routines
    [clu1fac], [clu6sol], [clu6mul] and [clu8rpc] through ctypes pointers.
    The native routines are outside the Python layer: they appear here as
    arbitrary functions (Section variables) from their arguments to the new
    contents of the buffers they were given, plus their scalar outputs.
    A ctypes pointer write cannot resize a numpy array, which is what
    [ptr_write] models.  float64 values are Rocq's primitive binary64 floats;
    numpy int64 values and Python ints are [Z]. *)

From Stdlib Require Import ZArith Lia Floats.
From stdpp Require Import base list.
From Stdlib Require String.
Import String.StringSyntax.

Set Warnings "-inexact-float".

Module LUSOL.

Local Open Scope Z_scope.

(** ** Python values *)

(** The exceptions the wrapper can raise. *)
Inductive exc :=
| ValueError
| RuntimeError (inform : Z)
| IndexError.

Inductive result (A : Type) :=
| Ok (x : A)
| Raise (e : exc).
Arguments Ok {A} x.
Arguments Raise {A} e.

Definition rbind {A B} (c : result A) (k : A -> result B) : result B :=
  match c with
  | Ok x => k x
  | Raise e => Raise e
  end.

Notation "'let!' x ':=' c 'in' k" := (rbind c (fun x => k))
  (at level 200, x pattern, c at level 100, k at level 200).

(** Python sequence indexing, negative indices counting from the end. *)
Definition py_index (len : nat) (i : Z) : option nat :=
  if (0 <=? i)%Z then
    (if (i <? Z.of_nat len)%Z then Some (Z.to_nat i) else None)
  else if (- Z.of_nat len <=? i)%Z then Some (Z.to_nat (Z.of_nat len + i))
  else None.

(** [l[i]] *)
Definition getitem {X} (l : list X) (i : Z) : result X :=
  match py_index (length l) i with
  | Some k => match l !! k with Some x => Ok x | None => Raise IndexError end
  | None => Raise IndexError
  end.

(** [l[i] = x] on a numpy array: in place, never extends the array. *)
Definition setitem {X} (l : list X) (i : Z) (x : X) : result (list X) :=
  match py_index (length l) i with
  | Some k => Ok (<[k := x]> l)
  | None => Raise IndexError
  end.

(** [np.zeros(k)] *)
Definition zeros {X} (z : X) (k : Z) : list X := repeat z (Z.to_nat k).

(** [range(k)] *)
Definition py_range (k : Z) : list Z := map Z.of_nat (seq 0%nat (Z.to_nat k)).

(** A native routine writing [new] through the data pointer of the numpy
    buffer [buf]: the buffer keeps its length, slot [i] takes the value the
    routine left there. *)
Definition ptr_write {X} (buf new : list X) : list X :=
  imap (fun i x => default x (new !! i)) buf.

(** ** The data model *)

(** [A.tocoo()]: the matrix as COO triplets, 0-based. *)
Record coo := mkCoo {
  shape_m : Z;
  shape_n : Z;
  data : list float;
  row : list Z;
  col : list Z
}.

(** [A_coo.nnz] *)
Definition nnz (A : coo) : Z := Z.of_nat (length (data A)).

(** The attributes of a [LUSOL] object. *)
Record handle := mkHandle {
  m : Z;
  n : Z;
  nelem : Z;
  lena : Z;
  luparm : list Z;
  parmlu : list float;
  a : list float;
  indc : list Z;
  indr : list Z;
  p : list Z;
  q : list Z;
  lenc : list Z;
  lenr : list Z;
  locc : list Z;
  locr : list Z;
  iploc : list Z;
  iqloc : list Z;
  ipinv : list Z;
  iqinv : list Z;
  w : list float
}.

(** [self.lena = max(self.nelem * 3, 10000)] *)
Definition lena_for (nelem : Z) : Z := Z.max (nelem * 3) 10000.

(** [LUSOL._set_default_parameters], on the two zero-filled arrays. *)
Definition set_default_parameters (luparm : list Z) (parmlu : list float)
    : result (list Z * list float) :=
  let! luparm := setitem luparm 0 0 in
  let! luparm := setitem luparm 1 10 in
  let! luparm := setitem luparm 2 5 in
  let! luparm := setitem luparm 5 0 in
  let! luparm := setitem luparm 7 1 in
  let! parmlu := setitem parmlu 0 10.0%float in
  let! parmlu := setitem parmlu 1 10.0%float in
  let! parmlu := setitem parmlu 2 1e-13%float in
  let! parmlu := setitem parmlu 3 1e-11%float in
  let! parmlu := setitem parmlu 4 1e-11%float in
  let! parmlu := setitem parmlu 5 3.0%float in
  let! parmlu := setitem parmlu 6 0.3%float in
  let! parmlu := setitem parmlu 7 0.5%float in
  Ok (luparm, parmlu).

(** The copy loop of [__init__]:
    [for i in range(self.nelem):
       self.a[i] = A_coo.data[i]
       self.indc[i] = A_coo.row[i] + 1
       self.indr[i] = A_coo.col[i] + 1] *)
Fixpoint copy_loop (A : coo) (is : list Z) (a indc indr : list _)
    : result (list float * list Z * list Z) :=
  match is with
  | [] => Ok (a, indc, indr)
  | i :: is' =>
      let! d := getitem (data A) i in
      let! a := setitem a i d in
      let! r := getitem (row A) i in
      let! indc := setitem indc i (r + 1)%Z in
      let! c := getitem (col A) i in
      let! indr := setitem indr i (c + 1)%Z in
      copy_loop A is' a indc indr
  end.

(** [__init__] up to (not including) the final [self._factorize()]. *)
Definition init_arrays (A : coo) : result handle :=
  let m := shape_m A in
  let n := shape_n A in
  let nelem := nnz A in
  let lena := lena_for nelem in
  let! (luparm, parmlu) := set_default_parameters (zeros 0%Z 30) (zeros 0%float 30) in
  let! (a, indc, indr) :=
    copy_loop A (py_range nelem) (zeros 0%float lena) (zeros 0%Z lena) (zeros 0%Z lena) in
  Ok {| m := m; n := n; nelem := nelem; lena := lena;
        luparm := luparm; parmlu := parmlu;
        a := a; indc := indc; indr := indr;
        p := zeros 0%Z m; q := zeros 0%Z n;
        lenc := zeros 0%Z n; lenr := zeros 0%Z m;
        locc := zeros 0%Z n; locr := zeros 0%Z m;
        iploc := zeros 0%Z m; iqloc := zeros 0%Z n;
        ipinv := zeros 0%Z m; iqinv := zeros 0%Z n;
        w := zeros 0%float n |}.

(** The buffers passed to [clu1fac] take what the routine wrote; the Python
    ints [m], [n], [nelem], [lena] are passed as fresh [c_int64] copies and
    are not affected. *)
Definition writeback_fac (h o : handle) : handle :=
  {| m := m h; n := n h; nelem := nelem h; lena := lena h;
     luparm := ptr_write (luparm h) (luparm o);
     parmlu := ptr_write (parmlu h) (parmlu o);
     a := ptr_write (a h) (a o);
     indc := ptr_write (indc h) (indc o);
     indr := ptr_write (indr h) (indr o);
     p := ptr_write (p h) (p o); q := ptr_write (q h) (q o);
     lenc := ptr_write (lenc h) (lenc o); lenr := ptr_write (lenr h) (lenr o);
     locc := ptr_write (locc h) (locc o); locr := ptr_write (locr h) (locr o);
     iploc := ptr_write (iploc h) (iploc o); iqloc := ptr_write (iqloc h) (iqloc o);
     ipinv := ptr_write (ipinv h) (ipinv o); iqinv := ptr_write (iqinv h) (iqinv o);
     w := ptr_write (w h) (w o) |}.

(** The buffers passed to [clu6sol], [clu6mul] and [clu8rpc]: [luparm],
    [parmlu], [a], [indc], [indr], [p], [q], [lenc], [lenr], [locc], [locr]. *)
Definition writeback_lu (h o : handle) : handle :=
  {| m := m h; n := n h; nelem := nelem h; lena := lena h;
     luparm := ptr_write (luparm h) (luparm o);
     parmlu := ptr_write (parmlu h) (parmlu o);
     a := ptr_write (a h) (a o);
     indc := ptr_write (indc h) (indc o);
     indr := ptr_write (indr h) (indr o);
     p := ptr_write (p h) (p o); q := ptr_write (q h) (q o);
     lenc := ptr_write (lenc h) (lenc o); lenr := ptr_write (lenr h) (lenr o);
     locc := ptr_write (locc h) (locc o); locr := ptr_write (locr h) (locr o);
     iploc := iploc h; iqloc := iqloc h; ipinv := ipinv h; iqinv := iqinv h;
     w := w h |}.

(** The dictionary returned by [get_stats]. *)
Record stats := mkStats {
  stat_nelem : Z;
  stat_nrank : Z;
  stat_nsing : Z;
  stat_growth : float
}.

(** [LUSOL.get_stats]: the result and the (untouched) object. *)
Definition get_stats (h : handle) : result stats * handle :=
  (let! e := getitem (luparm h) 11 in
   let! r := getitem (luparm h) 15 in
   let! s := getitem (luparm h) 10 in
   let! g := getitem (parmlu h) 15 in
   Ok {| stat_nelem := e; stat_nrank := r; stat_nsing := s; stat_growth := g |},
   h).

(** ** Methods that call the native library *)

(** The buffer sizes [__init__] allocates: [luparm] and [parmlu] of 30,
    [a], [indc], [indr] of [lena], the row-indexed buffers of [m], the
    column-indexed ones of [n]. *)
Definition wf (h : handle) : Prop :=
  length (luparm h) = 30%nat /\ length (parmlu h) = 30%nat /\
  length (a h) = Z.to_nat (lena h) /\ length (indc h) = Z.to_nat (lena h) /\
  length (indr h) = Z.to_nat (lena h) /\
  length (p h) = Z.to_nat (m h) /\ length (lenr h) = Z.to_nat (m h) /\
  length (locr h) = Z.to_nat (m h) /\ length (iploc h) = Z.to_nat (m h) /\
  length (ipinv h) = Z.to_nat (m h) /\
  length (q h) = Z.to_nat (n h) /\ length (lenc h) = Z.to_nat (n h) /\
  length (locc h) = Z.to_nat (n h) /\ length (iqloc h) = Z.to_nat (n h) /\
  length (iqinv h) = Z.to_nat (n h) /\ length (w h) = Z.to_nat (n h).

(** A method call on a constructed object.  An exception raised by [solve]
    does not destroy the object: a caller that catches it goes on with the
    object as the method left it. *)
Inductive op :=
| OpSolve (b : list float) (mode : Z)
| OpMulA (x : list float) (mode : Z)
| OpRepcol (v : list float) (jrep mode1 mode2 : Z)
| OpStats.

Section Native.

(** [clu1fac(m, n, nelem, lena, luparm, parmlu, a, indc, indr, p, q, lenc,
    lenr, locc, locr, iploc, iqloc, ipinv, iqinv, w, inform)]: the scalars,
    then the buffers (given as a [handle]); it yields what it wrote into the
    buffers (the buffer fields of the returned [handle]) and [inform]. *)
Variable clu1fac : Z -> Z -> Z -> Z -> handle -> handle * Z.

(** [clu6sol(mode, m, n, v, w, lena, luparm, ..., locr, inform)]: yields the
    new contents of [v], of [w], of the factor buffers, and [inform]. *)
Variable clu6sol : Z -> Z -> Z -> list float -> list float -> Z -> handle ->
  list float * list float * handle * Z.

(** [clu6mul(mode, m, n, v, w, lena, luparm, ..., locr)]: no [inform]. *)
Variable clu6mul : Z -> Z -> Z -> list float -> list float -> Z -> handle ->
  list float * list float * handle.

(** [clu8rpc(mode1, mode2, m, n, jrep, v, w, lena, luparm, ..., locr,
    inform, diag, vnorm)]. *)
Variable clu8rpc : Z -> Z -> Z -> Z -> Z -> list float -> list float -> Z ->
  handle -> list float * list float * handle * Z * float * float.

(** [LUSOL._factorize] *)
Definition _factorize (h : handle) : result unit * handle :=
  let '(o, inform) := clu1fac (m h) (n h) (nelem h) (lena h) h in
  let h' := writeback_fac h o in
  (if negb (inform =? 0) then Raise (RuntimeError inform) else Ok tt, h').

(** [LUSOL.__init__]: the object exists only if no exception escaped. *)
Definition init (A : coo) : result handle :=
  let! h0 := init_arrays A in
  let '(r, h) := _factorize h0 in
  let! _ := r in
  Ok h.

(** [LUSOL.solve(b, mode)]: the result and the object after the call. *)
Definition solve (h : handle) (b : list float) (mode : Z)
    : result (list float) * handle :=
  if negb (Z.of_nat (length b) =? m h) then (Raise ValueError, h) else
  let v := b in
  let w := zeros 0%float (n h) in
  let '(v', w', o, inform) := clu6sol mode (m h) (n h) v w (lena h) h in
  let v := ptr_write v v' in
  let w := ptr_write w w' in
  let h' := writeback_lu h o in
  if negb (inform =? 0) then (Raise (RuntimeError inform), h') else
  (Ok (if (mode =? 5) || (mode =? 6) then w else v), h').

(** [LUSOL.mulA(x, mode)] *)
Definition mulA (h : handle) (x : list float) (mode : Z) : list float * handle :=
  let v := x in
  let w := zeros 0%float (if mode =? 1 then m h else n h) in
  let '(v', w', o) := clu6mul mode (m h) (n h) v w (lena h) h in
  let w := ptr_write w w' in
  let h' := writeback_lu h o in
  (w, h').

(** [LUSOL.repcol(v, jrep, mode1, mode2)]: returns [inform.value]. *)
Definition repcol (h : handle) (v : list float) (jrep mode1 mode2 : Z) : Z * handle :=
  let w := zeros 0%float (m h) in
  let '(v', w', o, inform, diag, vnorm) :=
    clu8rpc mode1 mode2 (m h) (n h) jrep v w (lena h) h in
  let h' := writeback_lu h o in
  (inform, h').

(** The object after one call. *)
Definition step (h : handle) (o : op) : handle :=
  match o with
  | OpSolve b mode => snd (solve h b mode)
  | OpMulA x mode => snd (mulA h x mode)
  | OpRepcol v jrep mode1 mode2 => snd (repcol h v jrep mode1 mode2)
  | OpStats => snd (get_stats h)
  end.

(** The object after a sequence of calls. *)
Definition run (h : handle) (ops : list op) : handle := fold_left step ops h.

End Native.

End LUSOL.

(** ** Concrete inputs

    Stand-ins for the native routines and small matrices, used to run the
    model on concrete inputs. *)

Module Demo.
Import LUSOL.
Local Open Scope Z_scope.

(** A factorization routine that writes nothing and reports [inform]. *)
Definition fac_report (inform : Z) : Z -> Z -> Z -> Z -> handle -> handle * Z :=
  fun _ _ _ _ h => (h, inform).

(** A solve routine that writes nothing and reports [inform]. *)
Definition sol_report (inform : Z)
    : Z -> Z -> Z -> list float -> list float -> Z -> handle ->
      list float * list float * handle * Z :=
  fun _ _ _ v w _ h => (v, w, h, inform).

(** A solve routine that writes [sol] into [w] and reports success. *)
Definition sol_into_w (sol : list float)
    : Z -> Z -> Z -> list float -> list float -> Z -> handle ->
      list float * list float * handle * Z :=
  fun _ _ _ v _ _ h => (v, sol, h, 0).

(** A multiply routine that writes nothing. *)
Definition mul_none : Z -> Z -> Z -> list float -> list float -> Z -> handle ->
    list float * list float * handle :=
  fun _ _ _ v w _ h => (v, w, h).

(** A replace-column routine reporting [inform], [diag] and [vnorm]. *)
Definition rpc_report (inform : Z) (diag vnorm : float)
    : Z -> Z -> Z -> Z -> Z -> list float -> list float -> Z -> handle ->
      list float * list float * handle * Z * float * float :=
  fun _ _ _ _ _ v w _ h => (v, w, h, inform, diag, vnorm).

(** The 1x1 matrix [[1.0]]. *)
Definition A11 : coo := mkCoo 1 1 [1.0%float] [0] [0].

(** The 3x2 matrix [[1,0],[0,2],[0,0]]. *)
Definition A32 : coo := mkCoo 3 2 [1.0%float; 2.0%float] [0; 1] [0; 1].

(** A small 2x2 object, with short buffers. *)
Definition h22 : handle :=
  {| m := 2; n := 2; nelem := 2; lena := 4;
     luparm := zeros 0 30; parmlu := zeros 0%float 30;
     a := [1.0%float; 1.0%float; 0%float; 0%float]; indc := [1; 2; 0; 0];
     indr := [1; 2; 0; 0];
     p := [1; 2]; q := [1; 2]; lenc := [1; 1]; lenr := [1; 1];
     locc := [1; 2]; locr := [1; 2]; iploc := [1; 2]; iqloc := [1; 2];
     ipinv := [1; 2]; iqinv := [1; 2]; w := zeros 0%float 2 |}.

(** The object [LUSOL([[1.0]])] when the factorization reports success. *)
Definition h11 : handle :=
  match init (fac_report 0) A11 with Ok h => h | Raise _ => h22 end.

(** The object [LUSOL(A32)] (3 rows, 2 columns) when the factorization
    reports success. *)
Definition h32 : handle :=
  match init (fac_report 0) A32 with Ok h => h | Raise _ => h22 end.

End Demo.

(** ** Locating the native library (pylusol/clusol.py)

    [_find_library] and [_build_library_macos] over an abstract filesystem:
    [fs] answers [os.path.exists] before any build, [make] is the outcome of
    [make clean] followed by [make], [fs_built] answers [os.path.exists]
    after the build, and [copy_ok] says whether [os.makedirs] and
    [shutil.copy2] succeed.  [os_path_join] is [os.path.join] of the running
    platform: [posixpath.join] ([path_join] below) on Linux and Darwin,
    [ntpath.join] on Windows.  [pkg_dir] is [os.path.dirname(__file__)] and
    [repo_root] is [os.path.normpath(os.path.join(pkg_dir, '..'))], both
    given. *)

Module Clusol.

Local Open Scope string_scope.

(** [posixpath.join(a, b)], the [os.path.join] of Linux and Darwin *)
Definition path_join (a b : String.string) : String.string :=
  if String.prefix "/" b then b
  else if String.eqb a "" then b
  else if String.eqb (String.substring (String.length a - 1) 1 a) "/"
  then String.append a b
  else String.append a (String.append "/" b).

(** The platform's library file name; [None] raises [OSError]. *)
Definition lib_name (system : String.string) : option String.string :=
  if String.eqb system "Darwin" then Some "libclusol.dylib"
  else if String.eqb system "Linux" then Some "libclusol.so"
  else if String.eqb system "Windows" then Some "libclusol.dll"
  else None.

(** The outcome of [subprocess.check_call(['make', 'clean'])] followed by
    [subprocess.check_call(['make'])]: both succeed, or the first one to
    fail raises [CalledProcessError] (nonzero exit status),
    [FileNotFoundError] (no [make] executable) or another [OSError] (for
    instance [PermissionError]). *)
Inductive make_outcome :=
| MakeOk
| MakeCalledProcessError
| MakeFileNotFoundError
| MakeOtherOSError.

(** What [_build_library_macos] returns, or the [OSError] that escapes
    it: one from [make] that [except (CalledProcessError,
    FileNotFoundError)] does not catch, or one from [os.makedirs] or
    [shutil.copy2]. *)
Inductive build_result :=
| BuiltAt (path : String.string)
| NotBuilt
| BuildOSError.

(** What [_find_library] returns, or the [OSError] it raises. *)
Inductive find_result :=
| LibPath (path : String.string)
| FindOSError.

Section Os_path.

Variable os_path_join : String.string -> String.string -> String.string.

(** [search_paths], in the order of the source. *)
Definition search_paths (pkg_dir repo_root : String.string) : list String.string :=
  [os_path_join pkg_dir "lib";
   os_path_join repo_root "src";
   os_path_join repo_root "matlab";
   "/usr/local/lib";
   "/usr/lib"].

(** The loop [for path in search_paths: ... if os.path.exists(lib_path):
    return lib_path]. *)
Fixpoint first_existing (fs : String.string -> bool) (lib : String.string)
    (paths : list String.string) : option String.string :=
  match paths with
  | [] => None
  | path :: rest =>
      let lib_path := os_path_join path lib in
      if fs lib_path then Some lib_path else first_existing fs lib rest
  end.

(** [_build_library_macos(repo_root, pkg_dir)] *)
Definition build_library_macos (fs : String.string -> bool) (make : make_outcome)
    (fs_built : String.string -> bool) (copy_ok : bool)
    (repo_root pkg_dir : String.string) : build_result :=
  let makefile := os_path_join repo_root "makefile" in
  if negb (fs makefile) then NotBuilt
  else
    match make with
    | MakeCalledProcessError | MakeFileNotFoundError => NotBuilt
    | MakeOtherOSError => BuildOSError
    | MakeOk =>
        let src_lib := os_path_join (os_path_join repo_root "src") "libclusol.dylib" in
        if negb (fs_built src_lib) then NotBuilt
        else
          let lib_dir := os_path_join pkg_dir "lib" in
          let dest := os_path_join lib_dir "libclusol.dylib" in
          if copy_ok then BuiltAt dest else BuildOSError
    end.

(** [_find_library()] *)
Definition find_library (system pkg_dir repo_root : String.string)
    (fs : String.string -> bool) (make : make_outcome)
    (fs_built : String.string -> bool) (copy_ok : bool) : find_result :=
  match lib_name system with
  | None => FindOSError
  | Some lib =>
      match first_existing fs lib (search_paths pkg_dir repo_root) with
      | Some lib_path => LibPath lib_path
      | None =>
          if String.eqb system "Darwin" then
            match build_library_macos fs make fs_built copy_ok repo_root pkg_dir with
            | BuiltAt lib_path => LibPath lib_path
            | NotBuilt => LibPath lib
            | BuildOSError => FindOSError
            end
          else LibPath lib
      end
  end.

End Os_path.

End Clusol.

(** * Properties *)

Import LUSOL.
Local Open Scope Z_scope.

(** ** Helper lemmas *)

Lemma length_ptr_write {X} (buf new : list X) : length (ptr_write buf new) = length buf.
Proof. apply length_imap. Qed.

Lemma py_index_in (len : nat) (k : nat) :
  (k < len)%nat -> py_index len (Z.of_nat k) = Some k.
Proof.
  intros Hk. unfold py_index.
  rewrite (proj2 (Z.leb_le 0 (Z.of_nat k))) by lia.
  rewrite (proj2 (Z.ltb_lt (Z.of_nat k) (Z.of_nat len))) by lia.
  now rewrite Nat2Z.id.
Qed.

Lemma getitem_in {X} (l : list X) (k : nat) (x : X) :
  l !! k = Some x -> getitem l (Z.of_nat k) = Ok x.
Proof.
  intros Hx. unfold getitem.
  rewrite py_index_in by (eapply lookup_lt_Some; eauto).
  now rewrite Hx.
Qed.

Lemma setitem_in {X} (l : list X) (k : nat) (x : X) :
  (k < length l)%nat -> setitem l (Z.of_nat k) x = Ok (<[k := x]> l).
Proof. intros Hk. unfold setitem. now rewrite py_index_in. Qed.

(** The copy loop of [__init__] over indices [s, s+cnt): it never raises when
    the buffers and the COO arrays are long enough, keeps the buffer lengths,
    writes slot [k] of the range from triplet [k] (indices shifted by one),
    and leaves every other slot as it was. *)
Lemma copy_loop_spec (A : coo) (cnt : nat) :
  length (row A) = length (data A) ->
  length (col A) = length (data A) ->
  forall (s : nat) (a0 : list float) (c0 r0 : list Z),
  (s + cnt <= length (data A))%nat ->
  (s + cnt <= length a0)%nat ->
  length c0 = length a0 -> length r0 = length a0 ->
  exists a1 c1 r1,
    copy_loop A (map Z.of_nat (seq s cnt)) a0 c0 r0 = Ok (a1, c1, r1) /\
    length a1 = length a0 /\ length c1 = length a0 /\ length r1 = length a0 /\
    (forall k, (s <= k < s + cnt)%nat ->
       a1 !! k = data A !! k /\
       c1 !! k = (fun r => r + 1) <$> row A !! k /\
       r1 !! k = (fun c => c + 1) <$> col A !! k) /\
    (forall k, (k < s \/ s + cnt <= k)%nat ->
       a1 !! k = a0 !! k /\ c1 !! k = c0 !! k /\ r1 !! k = r0 !! k).
Proof.
  intros Hrow Hcol. induction cnt as [|cnt IH]; intros s a0 c0 r0 Hd Ha Hc Hr.
  - exists a0, c0, r0. simpl.
    split; [reflexivity|]. do 3 (split; [lia|]). split.
    + intros k Hk; lia.
    + intros k Hk; auto.
  - destruct (lookup_lt_is_Some_2 (data A) s) as [d Hdk]; [lia|].
    destruct (lookup_lt_is_Some_2 (row A) s) as [rv Hrk]; [lia|].
    destruct (lookup_lt_is_Some_2 (col A) s) as [cv Hck]; [lia|].
    cbn [seq map copy_loop].
    rewrite (getitem_in _ _ _ Hdk); cbn [rbind].
    rewrite setitem_in by lia; cbn [rbind].
    rewrite (getitem_in _ _ _ Hrk); cbn [rbind].
    rewrite setitem_in by lia; cbn [rbind].
    rewrite (getitem_in _ _ _ Hck); cbn [rbind].
    rewrite setitem_in by lia; cbn [rbind].
    destruct (IH (S s) (<[s:=d]> a0) (<[s:=rv + 1]> c0) (<[s:=cv + 1]> r0))
      as (a1 & c1 & r1 & Hrun & La & Lc & Lr & Hin & Hout);
      rewrite ?length_insert; try lia.
    exists a1, c1, r1. rewrite Hrun.
    rewrite length_insert in La, Lc, Lr.
    split; [reflexivity|]. split; [lia|]. split; [lia|]. split; [lia|]. split.
    + intros k Hk. destruct (decide (k = s)) as [->|Hne].
      * destruct (Hout s ltac:(lia)) as (E1 & E2 & E3).
        rewrite E1, E2, E3, Hdk, Hrk, Hck, !list_lookup_insert_eq by lia.
        cbn. split; [reflexivity|]. split; f_equal; lia.
      * apply Hin. lia.
    + intros k Hk. destruct (Hout k ltac:(lia)) as (E1 & E2 & E3).
      rewrite E1, E2, E3, !list_lookup_insert_ne by lia. auto.
Qed.

Lemma set_default_parameters_run :
  exists lp pl,
    set_default_parameters (zeros 0 30) (zeros 0%float 30) = Ok (lp, pl) /\
    length lp = 30%nat /\ length pl = 30%nat.
Proof. do 2 eexists. split; [reflexivity|]. split; reflexivity. Qed.

(** What [__init__] has set before it calls [_factorize]. *)
Lemma init_arrays_fields (A : coo) (h0 : handle) :
  init_arrays A = Ok h0 ->
  m h0 = shape_m A /\ n h0 = shape_n A /\ nelem h0 = nnz A /\
  lena h0 = lena_for (nnz A) /\
  length (luparm h0) = 30%nat /\ length (parmlu h0) = 30%nat.
Proof.
  unfold init_arrays.
  destruct set_default_parameters_run as (lp & pl & Hrun & Llp & Lpl).
  rewrite Hrun. cbn [rbind].
  destruct (copy_loop _ _ _ _ _) as [[[a1 c1] r1]|e]; cbn [rbind]; [|discriminate].
  intros Heq; injection Heq as <-. cbn. repeat split; auto.
Qed.

Lemma length_writeback_fac_luparm (h o : handle) :
  length (luparm (writeback_fac h o)) = length (luparm h) /\
  length (parmlu (writeback_fac h o)) = length (parmlu h).
Proof. cbn. now rewrite !length_ptr_write. Qed.

(** Every exit of [__init__]: an exception of the preparation, the
    [RuntimeError] of a failed factorization, or the factorized object. *)
Lemma init_cases (clu1fac : Z -> Z -> Z -> Z -> handle -> handle * Z) (A : coo) :
  init clu1fac A =
  match init_arrays A with
  | Raise e => Raise e
  | Ok h0 =>
      let '(o, inform) := clu1fac (m h0) (n h0) (nelem h0) (lena h0) h0 in
      if inform =? 0 then Ok (writeback_fac h0 o) else Raise (RuntimeError inform)
  end.
Proof.
  unfold init. destruct (init_arrays A) as [h0|e]; cbn [rbind]; [|reflexivity].
  unfold _factorize. destruct (clu1fac _ _ _ _ h0) as [o inform].
  destruct (inform =? 0); reflexivity.
Qed.

Lemma init_ok_inv (clu1fac : Z -> Z -> Z -> Z -> handle -> handle * Z) (A : coo) (h : handle) :
  init clu1fac A = Ok h ->
  exists h0 o, init_arrays A = Ok h0 /\
    clu1fac (m h0) (n h0) (nelem h0) (lena h0) h0 = (o, 0) /\
    h = writeback_fac h0 o.
Proof.
  rewrite init_cases. destruct (init_arrays A) as [h0|e]; [|discriminate].
  destruct (clu1fac _ _ _ _ h0) as [o inform] eqn:Hfac.
  destruct (inform =? 0) eqn:Hz; [|discriminate].
  apply Z.eqb_eq in Hz; subst inform.
  intros Heq; injection Heq as <-. eauto.
Qed.

(** The preparation part of [__init__] never raises on a COO input whose
    three arrays have the same length. *)
Lemma init_arrays_runs (A : coo) :
  length (row A) = length (data A) ->
  length (col A) = length (data A) ->
  exists h0, init_arrays A = Ok h0.
Proof.
  intros Hrow Hcol. unfold init_arrays.
  destruct set_default_parameters_run as (lp & pl & Hrun & _ & _).
  rewrite Hrun. cbn [rbind].
  destruct (copy_loop_spec A (length (data A)) Hrow Hcol 0
              (zeros 0%float (lena_for (nnz A))) (zeros 0 (lena_for (nnz A)))
              (zeros 0 (lena_for (nnz A))))
    as (a1 & c1 & r1 & Hcopy & _);
    unfold zeros; rewrite ?repeat_length; try (unfold lena_for, nnz; lia).
  unfold py_range, nnz. rewrite Nat2Z.id.
  unfold nnz, zeros in Hcopy. rewrite Hcopy. cbn [rbind].
  eexists. reflexivity.
Qed.

(** With a factorization routine that writes nothing and reports success,
    [LUSOL(A)] returns the prepared object. *)
Lemma init_report0 (A : coo) (h0 : handle) :
  init_arrays A = Ok h0 -> init (Demo.fac_report 0) A = Ok (writeback_fac h0 h0).
Proof. intros H0. rewrite init_cases, H0. reflexivity. Qed.

Lemma demo_h11_init :
  exists h0, init_arrays Demo.A11 = Ok h0 /\
    init (Demo.fac_report 0) Demo.A11 = Ok Demo.h11 /\ Demo.h11 = writeback_fac h0 h0.
Proof.
  destruct (init_arrays_runs Demo.A11) as [h0 H0]; [reflexivity|reflexivity|].
  exists h0. split; [exact H0|]. unfold Demo.h11. rewrite (init_report0 _ _ H0). auto.
Qed.

Lemma demo_h32_init :
  exists h0, init_arrays Demo.A32 = Ok h0 /\
    init (Demo.fac_report 0) Demo.A32 = Ok Demo.h32 /\ Demo.h32 = writeback_fac h0 h0.
Proof.
  destruct (init_arrays_runs Demo.A32) as [h0 H0]; [reflexivity|reflexivity|].
  exists h0. split; [exact H0|]. unfold Demo.h32. rewrite (init_report0 _ _ H0). auto.
Qed.

(** ** C10 *)

(** C10: an object is returned by [LUSOL(A)] only after the factorization
    routine has run on the prepared buffers as the last step and reported
    [inform = 0]; the returned object is exactly the prepared object with the
    buffers the routine wrote.  A nonzero [inform] raises [RuntimeError]
    carrying it, and no object is returned. *)
Theorem init_returns_factorized (clu1fac : Z -> Z -> Z -> Z -> handle -> handle * Z) (A : coo) :
  match init_arrays A with
  | Raise e => init clu1fac A = Raise e
  | Ok h0 =>
      let '(o, inform) := clu1fac (m h0) (n h0) (nelem h0) (lena h0) h0 in
      (inform = 0 /\ init clu1fac A = Ok (writeback_fac h0 o)) \/
      (inform <> 0 /\ init clu1fac A = Raise (RuntimeError inform))
  end.
Proof.
  rewrite init_cases. destruct (init_arrays A) as [h0|e]; [|reflexivity].
  destruct (clu1fac _ _ _ _ h0) as [o inform].
  destruct (inform =? 0) eqn:Hz.
  - left. apply Z.eqb_eq in Hz. auto.
  - right. apply Z.eqb_neq in Hz. auto.
Qed.

(** ** C2 *)

(** C2: the capacity [lena] of a constructed object is [max(3 * nnz, 10000)]. *)
Theorem init_lena (clu1fac : Z -> Z -> Z -> Z -> handle -> handle * Z) (A : coo) (h : handle) :
  init clu1fac A = Ok h -> lena h = Z.max (3 * nnz A) 10000.
Proof.
  intros Hinit. destruct (init_ok_inv _ _ _ Hinit) as (h0 & o & H0 & _ & ->).
  destruct (init_arrays_fields _ _ H0) as (_ & _ & _ & Hl & _).
  cbn. rewrite Hl. unfold lena_for. f_equal. lia.
Qed.

Lemma init_lena_witness :
  init (Demo.fac_report 0) Demo.A11 = Ok Demo.h11 /\
  lena Demo.h11 = Z.max (3 * nnz Demo.A11) 10000.
Proof.
  destruct demo_h11_init as (h0 & _ & E & _).
  split; [exact E|]. apply (init_lena (Demo.fac_report 0) Demo.A11 _ E).
Defined.

(** ** C7 *)

(** C7: for a COO input whose three arrays have the same length, the buffers
    handed to the factorization routine hold, for every triplet index
    [k < nnz], the triplet's value in [a], its 0-based row plus one in
    [indc] and its 0-based column plus one in [indr]. *)
Theorem init_wire_exact (A : coo) :
  length (row A) = length (data A) ->
  length (col A) = length (data A) ->
  exists h0,
    init_arrays A = Ok h0 /\
    (forall clu1fac : Z -> Z -> Z -> Z -> handle -> handle * Z,
       init clu1fac A = (let '(r, h) := _factorize clu1fac h0 in let! _ := r in Ok h)) /\
    forall k, (k < length (data A))%nat ->
      a h0 !! k = data A !! k /\
      indc h0 !! k = (fun r => r + 1) <$> row A !! k /\
      indr h0 !! k = (fun c => c + 1) <$> col A !! k.
Proof.
  intros Hrow Hcol. unfold init_arrays.
  destruct set_default_parameters_run as (lp & pl & Hrun & _ & _).
  rewrite Hrun. cbn [rbind].
  assert (Hcap : (length (data A) <= Z.to_nat (lena_for (nnz A)))%nat).
  { unfold lena_for, nnz. lia. }
  destruct (copy_loop_spec A (length (data A)) Hrow Hcol 0
              (zeros 0%float (lena_for (nnz A))) (zeros 0 (lena_for (nnz A)))
              (zeros 0 (lena_for (nnz A))))
    as (a1 & c1 & r1 & Hcopy & _ & _ & _ & Hin & _);
    unfold zeros; rewrite ?repeat_length; try lia.
  unfold py_range, nnz. rewrite Nat2Z.id.
  unfold nnz, zeros in Hcopy. rewrite Hcopy. cbn [rbind].
  eexists. split; [reflexivity|]. split.
  - intros clu1fac. unfold init, init_arrays.
    rewrite Hrun. cbn [rbind]. unfold py_range, nnz, zeros.
    rewrite Nat2Z.id, Hcopy. reflexivity.
  - intros k Hk. cbn. apply Hin. lia.
Qed.

Lemma init_wire_exact_witness :
  length (row Demo.A32) = length (data Demo.A32) /\
  length (col Demo.A32) = length (data Demo.A32) /\
  exists h0,
    init_arrays Demo.A32 = Ok h0 /\
    (forall clu1fac : Z -> Z -> Z -> Z -> handle -> handle * Z,
       init clu1fac Demo.A32 = (let '(r, h) := _factorize clu1fac h0 in let! _ := r in Ok h)) /\
    forall k, (k < length (data Demo.A32))%nat ->
      a h0 !! k = data Demo.A32 !! k /\
      indc h0 !! k = (fun r => r + 1) <$> row Demo.A32 !! k /\
      indr h0 !! k = (fun c => c + 1) <$> col Demo.A32 !! k.
Proof.
  split; [reflexivity|]. split; [reflexivity|].
  apply (init_wire_exact Demo.A32); reflexivity.
Defined.

(** ** C6 *)

Lemma getitem_nth {X} (l : list X) (i : Z) (d : X) :
  0 <= i < Z.of_nat (length l) -> getitem l i = Ok (nth (Z.to_nat i) l d).
Proof.
  intros Hi. unfold getitem, py_index.
  rewrite (proj2 (Z.leb_le 0 i)), (proj2 (Z.ltb_lt i _)) by lia.
  destruct (lookup_lt_is_Some_2 l (Z.to_nat i)) as [x Hx]; [lia|].
  rewrite Hx. f_equal. symmetry. apply nth_lookup_Some. exact Hx.
Qed.

Lemma init_control_lengths (clu1fac : Z -> Z -> Z -> Z -> handle -> handle * Z) (A : coo) (h : handle) :
  init clu1fac A = Ok h -> length (luparm h) = 30%nat /\ length (parmlu h) = 30%nat.
Proof.
  intros Hinit. destruct (init_ok_inv _ _ _ Hinit) as (h0 & o & H0 & _ & ->).
  destruct (init_arrays_fields _ _ H0) as (_ & _ & _ & _ & L1 & L2).
  destruct (length_writeback_fac_luparm h0 o) as [-> ->]. auto.
Qed.

(** C6: on a constructed object, [get_stats] returns exactly the four fields
    [luparm[11]] (element count), [luparm[15]] (rank estimate),
    [luparm[10]] (singularity count) and [parmlu[15]] (growth factor), and
    the object after the call is the object before it, field for field. *)
Theorem get_stats_snapshot (clu1fac : Z -> Z -> Z -> Z -> handle -> handle * Z)
    (A : coo) (h : handle) :
  init clu1fac A = Ok h ->
  get_stats h =
    (Ok {| stat_nelem := nth 11 (luparm h) 0;
           stat_nrank := nth 15 (luparm h) 0;
           stat_nsing := nth 10 (luparm h) 0;
           stat_growth := nth 15 (parmlu h) 0%float |},
     h).
Proof.
  intros Hinit. destruct (init_control_lengths _ _ _ Hinit) as [L1 L2].
  unfold get_stats.
  rewrite (getitem_nth (luparm h) 11 0) by lia. cbn [rbind].
  rewrite (getitem_nth (luparm h) 15 0) by lia. cbn [rbind].
  rewrite (getitem_nth (luparm h) 10 0) by lia. cbn [rbind].
  rewrite (getitem_nth (parmlu h) 15 0%float) by lia. cbn [rbind].
  reflexivity.
Qed.

Lemma get_stats_snapshot_witness :
  init (Demo.fac_report 0) Demo.A11 = Ok Demo.h11 /\
  get_stats Demo.h11 =
    (Ok {| stat_nelem := nth 11 (luparm Demo.h11) 0;
           stat_nrank := nth 15 (luparm Demo.h11) 0;
           stat_nsing := nth 10 (luparm Demo.h11) 0;
           stat_growth := nth 15 (parmlu Demo.h11) 0%float |},
     Demo.h11).
Proof.
  destruct demo_h11_init as (h0 & _ & E & _).
  split; [exact E|]. apply (get_stats_snapshot (Demo.fac_report 0) Demo.A11 Demo.h11 E).
Defined.

(** ** C4 *)

(** C4 fails on the code: [solve] picks the returned buffer by the mode
    alone.  On the 3x2 matrix [A32] ([m = 3], [n = 2]), mode 6, documented
    as solving [A'*x = b], accepts the 3-entry [b = [1, 2, 3]] and, whenever
    the solve routine reports success, returns the 2-entry buffer [w],
    whereas a solution [x] of [A'*x = b] has [m = 3] entries; otherwise it
    raises [RuntimeError] with the routine's nonzero status.  In mode 3,
    documented as solving [U*w = v], a routine that writes its answer
    [[7, 8]] into [w] leaves [solve] returning the copy [[1, 2]] of [b]. *)
Theorem solve_returned_buffer_mismatch
    (clu6sol : Z -> Z -> Z -> list float -> list float -> Z -> handle ->
               list float * list float * handle * Z) :
  init (Demo.fac_report 0) Demo.A32 = Ok Demo.h32 /\
  m Demo.h32 = 3 /\ n Demo.h32 = 2 /\
  match fst (solve clu6sol Demo.h32 [1.0%float; 2.0%float; 3.0%float] 6) with
  | Ok x => length x = 2%nat
  | Raise e => exists inform, e = RuntimeError inform /\ inform <> 0
  end /\
  fst (solve (Demo.sol_into_w [7.0%float; 8.0%float]) Demo.h22
         [1.0%float; 2.0%float] 3) = Ok [1.0%float; 2.0%float].
Proof.
  destruct demo_h32_init as (h0 & H0 & E & Eh).
  destruct (init_arrays_fields _ _ H0) as (Hm & Hn & _).
  assert (Em : m Demo.h32 = 3) by (rewrite Eh; exact Hm).
  assert (En : n Demo.h32 = 2) by (rewrite Eh; exact Hn).
  split; [exact E|]. split; [exact Em|]. split; [exact En|]. split.
  - unfold solve. rewrite Em, En. cbn [length Z.of_nat Z.eqb negb].
    destruct (clu6sol _ _ _ _ _ _ _) as [[[v' w'] o] inform].
    replace (Z.of_nat 3 =? 3) with true by reflexivity.
    destruct (inform =? 0) eqn:Hi; cbn [negb fst].
    + cbn -[ptr_write zeros writeback_lu Demo.h32]. rewrite length_ptr_write. reflexivity.
    + cbn -[ptr_write zeros writeback_lu Demo.h32]. exists inform. split; [reflexivity|]. apply Z.eqb_neq. exact Hi.
  - reflexivity.
Qed.

(** ** Which buffer [solve] returns *)

(** X13: when the length check passes and the solve routine reports
    [inform = 0], [solve] returns the buffer [w] (length [n]) for modes 5
    and 6 and the overwritten copy [v] of the right-hand side (length [m])
    for every other mode; what the buffers hold is up to the routine. *)
Theorem solve_output_buffer
    (clu6sol : Z -> Z -> Z -> list float -> list float -> Z -> handle ->
               list float * list float * handle * Z)
    (h : handle) (b : list float) (mode : Z) (v' w' : list float) (o : handle) :
  Z.of_nat (length b) = m h ->
  clu6sol mode (m h) (n h) b (zeros 0%float (n h)) (lena h) h = (v', w', o, 0) ->
  fst (solve clu6sol h b mode) =
    Ok (if (mode =? 5) || (mode =? 6)
        then ptr_write (zeros 0%float (n h)) w'
        else ptr_write b v') /\
  length (if (mode =? 5) || (mode =? 6)
          then ptr_write (zeros 0%float (n h)) w'
          else ptr_write b v') =
    (if (mode =? 5) || (mode =? 6) then Z.to_nat (n h) else length b).
Proof.
  intros Hlen Hsol. unfold solve.
  rewrite (proj2 (Z.eqb_eq _ _) Hlen). cbn [negb]. rewrite Hsol. cbn.
  split; [reflexivity|].
  destruct ((mode =? 5) || (mode =? 6)); rewrite length_ptr_write; [|reflexivity].
  apply repeat_length.
Qed.

Lemma solve_output_buffer_witness :
  fst (solve (Demo.sol_into_w [3.0%float; 4.0%float]) Demo.h22 [1.0%float; 2.0%float] 5) =
    Ok [3.0%float; 4.0%float] /\
  length [3.0%float; 4.0%float] = 2%nat.
Proof.
  exact (solve_output_buffer (Demo.sol_into_w [3.0%float; 4.0%float]) Demo.h22
           [1.0%float; 2.0%float] 5 _ _ _ eq_refl eq_refl).
Defined.

(** ** C9 *)

(** C9: [mulA] yields a plain vector (no status value, no exception path)
    of length [m] for mode 1 and [n] for any other mode, mode 2 included. *)
Theorem mulA_result_length
    (clu6mul : Z -> Z -> Z -> list float -> list float -> Z -> handle ->
               list float * list float * handle)
    (h : handle) (x : list float) (mode : Z) :
  length (fst (mulA clu6mul h x mode)) =
    Z.to_nat (if mode =? 1 then m h else n h).
Proof.
  unfold mulA.
  destruct (clu6mul _ _ _ _ _ _ _) as [[v' w'] o]. cbn [fst].
  rewrite length_ptr_write. apply repeat_length.
Qed.

(** ** C1 *)

(** C1 fails: with a factorization routine reporting [inform = 1],
    [_factorize] raises [RuntimeError] (and so does [LUSOL(A)]); with a solve
    routine reporting [inform = 1], [solve] raises [RuntimeError] too.  No
    status value reaches the caller. *)
Lemma status_raised_counterexample :
  fst (_factorize (Demo.fac_report 1) Demo.h22) = Raise (RuntimeError 1) /\
  init (Demo.fac_report 1) Demo.A11 = Raise (RuntimeError 1) /\
  fst (solve (Demo.sol_report 1) Demo.h22 [1.0%float; 2.0%float] 5) = Raise (RuntimeError 1).
Proof.
  split; [vm_compute; reflexivity|]. split; [|vm_compute; reflexivity].
  destruct demo_h11_init as (h0 & H0 & _).
  rewrite init_cases, H0. reflexivity.
Qed.

(** C1 (amended): [_factorize] raises [RuntimeError inform] exactly when the
    routine reports a nonzero [inform]; [solve] raises [ValueError] when the
    length of [b] is not [m], and [RuntimeError inform] when the routine
    reports a nonzero [inform]; [repcol] returns the routine's [inform] as
    a plain integer. *)
Theorem status_reporting
    (clu1fac : Z -> Z -> Z -> Z -> handle -> handle * Z)
    (clu6sol : Z -> Z -> Z -> list float -> list float -> Z -> handle ->
               list float * list float * handle * Z)
    (clu8rpc : Z -> Z -> Z -> Z -> Z -> list float -> list float -> Z ->
               handle -> list float * list float * handle * Z * float * float)
    (h : handle) (b v : list float) (mode jrep mode1 mode2 : Z) :
  fst (_factorize clu1fac h) =
    (let inform := snd (clu1fac (m h) (n h) (nelem h) (lena h) h) in
     if inform =? 0 then Ok tt else Raise (RuntimeError inform)) /\
  (Z.of_nat (length b) <> m h -> fst (solve clu6sol h b mode) = Raise ValueError) /\
  (Z.of_nat (length b) = m h ->
   snd (clu6sol mode (m h) (n h) b (zeros 0%float (n h)) (lena h) h) <> 0 ->
   fst (solve clu6sol h b mode) =
     Raise (RuntimeError (snd (clu6sol mode (m h) (n h) b (zeros 0%float (n h)) (lena h) h)))) /\
  fst (repcol clu8rpc h v jrep mode1 mode2) =
    snd (fst (fst (clu8rpc mode1 mode2 (m h) (n h) jrep v (zeros 0%float (m h)) (lena h) h))).
Proof.
  split; [|split; [|split]].
  - unfold _factorize. destruct (clu1fac _ _ _ _ h) as [o inform]. cbn.
    destruct (inform =? 0); reflexivity.
  - intros Hne. unfold solve.
    rewrite (proj2 (Z.eqb_neq _ _) Hne). reflexivity.
  - intros Heq. unfold solve.
    rewrite (proj2 (Z.eqb_eq _ _) Heq). cbn [negb].
    destruct (clu6sol _ _ _ _ _ _ _) as [[[v' w'] o] inform]. cbn [snd].
    intros Hz. rewrite (proj2 (Z.eqb_neq _ _) Hz). reflexivity.
  - unfold repcol.
    destruct (clu8rpc _ _ _ _ _ _ _ _ _) as [[[[[v' w'] o] inform] diag] vnorm].
    reflexivity.
Qed.

Lemma status_reporting_witness :
  fst (solve (Demo.sol_report 1) Demo.h22 [1.0%float; 2.0%float] 5) = Raise (RuntimeError 1) /\
  fst (solve (Demo.sol_report 0) Demo.h22 [1.0%float] 5) = Raise ValueError.
Proof.
  destruct (status_reporting (Demo.fac_report 1) (Demo.sol_report 1) (Demo.rpc_report 0 0 0)
              Demo.h22 [1.0%float; 2.0%float] [] 5 1 2 2) as (_ & _ & Hsol & _).
  destruct (status_reporting (Demo.fac_report 1) (Demo.sol_report 0) (Demo.rpc_report 0 0 0)
              Demo.h22 [1.0%float] [] 5 1 2 2) as (_ & Hlen & _ & _).
  split.
  - apply Hsol; [reflexivity | cbn; lia].
  - apply Hlen. cbn. lia.
Defined.

(** ** C5 *)

(** C5 fails: two replace-column routines that agree on everything but the
    diagonal and norm they report give the caller the same result. *)
Lemma repcol_diagnostics_counterexample :
  repcol (Demo.rpc_report 0 2.0%float 3.0%float) Demo.h22 [1.0%float; 0%float] 1 2 2 =
  repcol (Demo.rpc_report 0 5.0%float 7.0%float) Demo.h22 [1.0%float; 0%float] 1 2 2 /\
  fst (repcol (Demo.rpc_report 0 2.0%float 3.0%float) Demo.h22 [1.0%float; 0%float] 1 2 2) = 0.
Proof. split; reflexivity. Qed.

(** C5 (amended): [repcol] returns the routine's [inform] as its only value;
    whatever diagonal and norm the routine reports, the caller's result and
    the object after the call are the same. *)
Theorem repcol_returns_inform_only
    (clu8rpc : Z -> Z -> Z -> Z -> Z -> list float -> list float -> Z ->
               handle -> list float * list float * handle * Z * float * float)
    (h : handle) (v : list float) (jrep mode1 mode2 : Z) (diag' vnorm' : float) :
  let other := fun a1 a2 a3 a4 a5 a6 a7 a8 a9 =>
    let '(v', w', o, inform, _, _) := clu8rpc a1 a2 a3 a4 a5 a6 a7 a8 a9 in
    (v', w', o, inform, diag', vnorm') in
  repcol other h v jrep mode1 mode2 = repcol clu8rpc h v jrep mode1 mode2 /\
  fst (repcol clu8rpc h v jrep mode1 mode2) =
    snd (fst (fst (clu8rpc mode1 mode2 (m h) (n h) jrep v (zeros 0%float (m h)) (lena h) h))).
Proof.
  intros other. unfold repcol, other.
  destruct (clu8rpc _ _ _ _ _ _ _ _ _) as [[[[[v' w'] o] inform] diag] vnorm].
  split; reflexivity.
Qed.

(** ** C3 *)

(** C3, at the failing input: [A32] has 3 rows and 2 columns; mode 6 solves
    [A' x = b], whose right-hand side has 2 entries, yet [solve] rejects
    [b = [1.0, 2.0]] with [ValueError] before calling any routine, because
    it compares the length with [m] in every mode.  A 3-entry vector, the
    wrong size for mode 6, passes the check and reaches the routine. *)
Theorem solve_mode6_checks_rows
    (clu6sol : Z -> Z -> Z -> list float -> list float -> Z -> handle ->
               list float * list float * handle * Z) :
  init (Demo.fac_report 0) Demo.A32 = Ok Demo.h32 /\
  m Demo.h32 = 3 /\ n Demo.h32 = 2 /\
  solve clu6sol Demo.h32 [1.0%float; 2.0%float] 6 = (Raise ValueError, Demo.h32) /\
  solve clu6sol Demo.h32 [1.0%float; 2.0%float; 3.0%float] 6 =
    (let '(v', w', o, inform) :=
       clu6sol 6 3 2 [1.0%float; 2.0%float; 3.0%float] (zeros 0%float 2) (lena Demo.h32) Demo.h32 in
     if negb (inform =? 0) then (Raise (RuntimeError inform), writeback_lu Demo.h32 o)
     else (Ok (ptr_write (zeros 0%float 2) w'), writeback_lu Demo.h32 o)).
Proof.
  destruct demo_h32_init as (h0 & H0 & E & Eh).
  destruct (init_arrays_fields _ _ H0) as (Hm & Hn & _).
  assert (Em : m Demo.h32 = 3) by (rewrite Eh; exact Hm).
  assert (En : n Demo.h32 = 2) by (rewrite Eh; exact Hn).
  split; [exact E|]. split; [exact Em|]. split; [exact En|]. split.
  - unfold solve. rewrite Em. reflexivity.
  - unfold solve. rewrite Em, En. cbn [length Z.of_nat Z.eqb negb].
    destruct (clu6sol _ _ _ _ _ _ _) as [[[v' w'] o] inform].
    reflexivity.
Qed.

(** ** C8 *)

(** C8 fails: [LUSOL(A)] takes the matrix alone, and the capacity of the
    object is fixed by the code; on [[1.0]] (one nonzero) construction
    succeeds with [lena = 10000], whatever capacity a caller wants. *)
Lemma lena_fixed_counterexample :
  init (Demo.fac_report 0) Demo.A11 = Ok Demo.h11 /\
  nnz Demo.A11 = 1 /\ lena Demo.h11 = 10000.
Proof.
  destruct demo_h11_init as (h0 & H0 & E & Eh).
  split; [exact E|]. split; [reflexivity|].
  destruct (init_arrays_fields _ _ H0) as (_ & _ & _ & Hl & _).
  rewrite Eh. cbn. rewrite Hl. reflexivity.
Qed.

(** C8 (amended): the constructor accepts no capacity hint: before the
    factorization it sets [lena = max(3 * nnz, 10000)], so the capacity
    handed to the factorization routine is never below [nnz]. *)
Theorem init_capacity_at_least_nnz (A : coo) (h0 : handle) :
  init_arrays A = Ok h0 ->
  lena h0 = Z.max (3 * nnz A) 10000 /\ nnz A <= lena h0 /\
  (forall clu1fac : Z -> Z -> Z -> Z -> handle -> handle * Z,
     init clu1fac A =
       (let '(r, h) := _factorize clu1fac h0 in let! _ := r in Ok h)).
Proof.
  intros H0. destruct (init_arrays_fields _ _ H0) as (_ & _ & _ & Hl & _).
  unfold lena_for in Hl. split; [|split].
  - rewrite Hl. f_equal. lia.
  - rewrite Hl. unfold nnz. lia.
  - intros clu1fac. unfold init. rewrite H0. reflexivity.
Qed.

Lemma init_capacity_at_least_nnz_witness :
  exists h0, init_arrays Demo.A11 = Ok h0 /\
  lena h0 = Z.max (3 * nnz Demo.A11) 10000 /\ nnz Demo.A11 <= lena h0.
Proof.
  destruct (init_arrays_runs Demo.A11) as [h0 E]; [reflexivity|reflexivity|].
  exists h0. split; [exact E|].
  destruct (init_capacity_at_least_nnz Demo.A11 h0 E) as (H1 & H2 & _). auto.
Defined.

(** ** Further properties of the [LUSOL] methods *)

Lemma rbind_ok {A B} (c : result A) (k : A -> result B) (y : B) :
  rbind c k = Ok y -> exists x, c = Ok x /\ k x = Ok y.
Proof. destruct c as [x|e]; cbn; [eauto|discriminate]. Qed.

Lemma setitem_length {X} (l l' : list X) (i : Z) (x : X) :
  setitem l i x = Ok l' -> length l' = length l.
Proof.
  unfold setitem. destruct (py_index _ _); intros H; [|discriminate].
  injection H as <-. apply length_insert.
Qed.

Lemma copy_loop_lengths (A : coo) (is : list Z) :
  forall a0 c0 r0 a1 c1 r1,
  copy_loop A is a0 c0 r0 = Ok (a1, c1, r1) ->
  length a1 = length a0 /\ length c1 = length c0 /\ length r1 = length r0.
Proof.
  induction is as [|i is IH]; intros a0 c0 r0 a1 c1 r1 Hrun; cbn in Hrun.
  - injection Hrun as <- <- <-. auto.
  - apply rbind_ok in Hrun as (d & _ & Hrun).
    apply rbind_ok in Hrun as (a' & Ha & Hrun).
    apply rbind_ok in Hrun as (r & _ & Hrun).
    apply rbind_ok in Hrun as (c' & Hc & Hrun).
    apply rbind_ok in Hrun as (cv & _ & Hrun).
    apply rbind_ok in Hrun as (r' & Hr & Hrun).
    apply setitem_length in Ha, Hc, Hr.
    destruct (IH _ _ _ _ _ _ Hrun) as (E1 & E2 & E3). lia.
Qed.

Lemma init_arrays_wf (A : coo) (h0 : handle) : init_arrays A = Ok h0 -> wf h0.
Proof.
  unfold init_arrays.
  destruct set_default_parameters_run as (lp & pl & Hrun & Llp & Lpl).
  rewrite Hrun. cbn [rbind].
  destruct (copy_loop _ _ _ _ _) as [[[a1 c1] r1]|e] eqn:Hc; cbn [rbind]; [|discriminate].
  apply copy_loop_lengths in Hc as (E1 & E2 & E3).
  unfold zeros in E1, E2, E3. rewrite repeat_length in E1, E2, E3.
  intros Heq; injection Heq as <-.
  unfold wf, zeros; cbn. rewrite !repeat_length. auto 20.
Qed.

Lemma wf_writeback_fac (h o : handle) : wf h -> wf (writeback_fac h o).
Proof. unfold wf. cbn. rewrite !length_ptr_write. tauto. Qed.

Lemma wf_writeback_lu (h o : handle) : wf h -> wf (writeback_lu h o).
Proof. unfold wf. cbn. rewrite !length_ptr_write. tauto. Qed.

Section Calls.

Variable clu6sol : Z -> Z -> Z -> list float -> list float -> Z -> handle ->
  list float * list float * handle * Z.
Variable clu6mul : Z -> Z -> Z -> list float -> list float -> Z -> handle ->
  list float * list float * handle.
Variable clu8rpc : Z -> Z -> Z -> Z -> Z -> list float -> list float -> Z ->
  handle -> list float * list float * handle * Z * float * float.

Lemma step_cases (h : handle) (o : op) :
  step clu6sol clu6mul clu8rpc h o = h \/
  exists o', step clu6sol clu6mul clu8rpc h o = writeback_lu h o'.
Proof.
  destruct o as [b mode|x mode|v jrep mode1 mode2|]; cbn [step].
  - unfold solve. destruct (negb _); [left; reflexivity|].
    destruct (clu6sol _ _ _ _ _ _ _) as [[[v' w'] o'] inform].
    destruct (negb _); right; eauto.
  - unfold mulA. destruct (clu6mul _ _ _ _ _ _ _) as [[v' w'] o']. right; eauto.
  - unfold repcol.
    destruct (clu8rpc _ _ _ _ _ _ _ _ _) as [[[[[v' w'] o'] inform] diag] vnorm].
    right; eauto.
  - left. reflexivity.
Qed.

(** X1: whatever sequence of [solve], [mulA], [repcol] and [get_stats]
    calls a caller makes (exceptions caught), every buffer keeps the size
    [__init__] gave it. *)
Theorem run_preserves_wf (h : handle) (ops : list op) :
  wf h -> wf (run clu6sol clu6mul clu8rpc h ops).
Proof.
  revert h. induction ops as [|o ops IH]; intros h Hwf; [exact Hwf|].
  cbn. apply IH.
  destruct (step_cases h o) as [->|[o' ->]]; [exact Hwf|].
  apply wf_writeback_lu, Hwf.
Qed.

(** X2: no sequence of method calls changes [m], [n], [nelem], [lena], nor
    the buffers [iploc], [iqloc], [ipinv], [iqinv] and [w] of the object,
    which only the factorization in [__init__] writes. *)
Theorem run_frame (h : handle) (ops : list op) :
  let h' := run clu6sol clu6mul clu8rpc h ops in
  m h' = m h /\ n h' = n h /\ nelem h' = nelem h /\ lena h' = lena h /\
  iploc h' = iploc h /\ iqloc h' = iqloc h /\ ipinv h' = ipinv h /\
  iqinv h' = iqinv h /\ w h' = w h.
Proof.
  revert h. induction ops as [|o ops IH]; intros h; cbv zeta; [cbn; auto 20|].
  change (run clu6sol clu6mul clu8rpc h (o :: ops))
    with (run clu6sol clu6mul clu8rpc (step clu6sol clu6mul clu8rpc h o) ops).
  specialize (IH (step clu6sol clu6mul clu8rpc h o)). cbv zeta in IH.
  destruct IH as (E1 & E2 & E3 & E4 & E5 & E6 & E7 & E8 & E9).
  rewrite E1, E2, E3, E4, E5, E6, E7, E8, E9.
  destruct (step_cases h o) as [->|[o' ->]]; cbn; auto 20.
Qed.

End Calls.

(** X3: on an object returned by [LUSOL(A)], [get_stats] never raises,
    whatever method calls came before. *)
Theorem get_stats_after_run
    (clu1fac : Z -> Z -> Z -> Z -> handle -> handle * Z)
    (clu6sol : Z -> Z -> Z -> list float -> list float -> Z -> handle ->
               list float * list float * handle * Z)
    (clu6mul : Z -> Z -> Z -> list float -> list float -> Z -> handle ->
               list float * list float * handle)
    (clu8rpc : Z -> Z -> Z -> Z -> Z -> list float -> list float -> Z ->
               handle -> list float * list float * handle * Z * float * float)
    (A : coo) (h : handle) (ops : list op) :
  init clu1fac A = Ok h ->
  exists st, fst (get_stats (run clu6sol clu6mul clu8rpc h ops)) = Ok st.
Proof.
  intros Hinit. destruct (init_ok_inv _ _ _ Hinit) as (h0 & o & H0 & _ & ->).
  pose proof (run_preserves_wf clu6sol clu6mul clu8rpc _ ops
                (wf_writeback_fac _ o (init_arrays_wf _ _ H0))) as Hwf.
  destruct Hwf as (L1 & L2 & _).
  set (h' := run _ _ _ _ _) in *.
  unfold get_stats. cbn [fst].
  rewrite (getitem_nth (luparm h') 11 0) by lia. cbn [rbind].
  rewrite (getitem_nth (luparm h') 15 0) by lia. cbn [rbind].
  rewrite (getitem_nth (luparm h') 10 0) by lia. cbn [rbind].
  rewrite (getitem_nth (parmlu h') 15 0%float) by lia. cbn [rbind].
  eexists. reflexivity.
Qed.

Lemma get_stats_after_run_witness :
  init (Demo.fac_report 0) Demo.A11 = Ok Demo.h11 /\
  exists st, fst (get_stats (run (Demo.sol_report 1) Demo.mul_none (Demo.rpc_report 0 0 0)
                               Demo.h11 [OpSolve [1.0%float] 5; OpStats])) = Ok st.
Proof.
  destruct demo_h11_init as (h0 & _ & E & _).
  split; [exact E|].
  exact (get_stats_after_run (Demo.fac_report 0) (Demo.sol_report 1) Demo.mul_none
           (Demo.rpc_report 0 0 0) Demo.A11 Demo.h11 _ E).
Defined.

Lemma run_preserves_wf_witness :
  wf Demo.h22 /\
  wf (run (Demo.sol_report 1) Demo.mul_none (Demo.rpc_report 0 0 0) Demo.h22
        [OpSolve [1.0%float; 2.0%float] 5; OpMulA [1.0%float] 2; OpRepcol [] 1 2 2]).
Proof.
  assert (H : wf Demo.h22) by (repeat split).
  split; [exact H|].
  exact (run_preserves_wf (Demo.sol_report 1) Demo.mul_none (Demo.rpc_report 0 0 0)
           Demo.h22 _ H).
Defined.

(** X4: a right-hand side whose length is not [m] is rejected with
    [ValueError] before the solve routine is called: the object is left
    exactly as it was, whatever the routine would have done. *)
Theorem solve_rejects_before_call
    (clu6sol : Z -> Z -> Z -> list float -> list float -> Z -> handle ->
               list float * list float * handle * Z)
    (h : handle) (b : list float) (mode : Z) :
  Z.of_nat (length b) <> m h -> solve clu6sol h b mode = (Raise ValueError, h).
Proof.
  intros Hne. unfold solve. rewrite (proj2 (Z.eqb_neq _ _) Hne). reflexivity.
Qed.

Lemma solve_rejects_before_call_witness :
  Z.of_nat (length [1.0%float]) <> m Demo.h22 /\
  solve (Demo.sol_into_w [5.0%float]) Demo.h22 [1.0%float] 5 = (Raise ValueError, Demo.h22).
Proof.
  assert (H : Z.of_nat (length [1.0%float]) <> m Demo.h22) by (cbn; lia).
  split; [exact H|]. exact (solve_rejects_before_call _ Demo.h22 [1.0%float] 5 H).
Defined.

(** X5: a solve that fails with [RuntimeError] does not roll back: the
    object afterwards holds what the routine wrote into the factor buffers,
    the same object as if the routine had reported success. *)
Theorem solve_failure_keeps_writes
    (clu6sol : Z -> Z -> Z -> list float -> list float -> Z -> handle ->
               list float * list float * handle * Z)
    (h : handle) (b : list float) (mode inform' : Z) :
  let other := fun a1 a2 a3 a4 a5 a6 a7 =>
    let '(v', w', o, _) := clu6sol a1 a2 a3 a4 a5 a6 a7 in (v', w', o, inform') in
  snd (solve other h b mode) = snd (solve clu6sol h b mode).
Proof.
  intros other. unfold solve, other.
  destruct (negb _); [reflexivity|].
  destruct (clu6sol _ _ _ _ _ _ _) as [[[v' w'] o] inform].
  destruct (negb (inform' =? 0)), (negb (inform =? 0)); reflexivity.
Qed.

Lemma lookup_repeat_lt {X} (x : X) (k len : nat) :
  (k < len)%nat -> repeat x len !! k = Some x.
Proof.
  revert k. induction len as [|len IH]; intros k Hk; [lia|].
  destruct k as [|k]; cbn; [reflexivity|]. apply IH. lia.
Qed.

(** X6: the buffers [a], [indc] and [indr] handed to the factorization
    hold zeros in every slot past the [nnz] copied triplets, up to [lena]. *)
Theorem init_zero_padding (A : coo) :
  length (row A) = length (data A) ->
  length (col A) = length (data A) ->
  exists h0,
    init_arrays A = Ok h0 /\
    forall k, (length (data A) <= k < Z.to_nat (lena h0))%nat ->
      a h0 !! k = Some 0%float /\ indc h0 !! k = Some 0 /\ indr h0 !! k = Some 0.
Proof.
  intros Hrow Hcol. unfold init_arrays.
  destruct set_default_parameters_run as (lp & pl & Hrun & _ & _).
  rewrite Hrun. cbn [rbind].
  destruct (copy_loop_spec A (length (data A)) Hrow Hcol 0
              (zeros 0%float (lena_for (nnz A))) (zeros 0 (lena_for (nnz A)))
              (zeros 0 (lena_for (nnz A))))
    as (a1 & c1 & r1 & Hcopy & _ & _ & _ & _ & Hout);
    unfold zeros; rewrite ?repeat_length; try (unfold lena_for, nnz; lia).
  unfold py_range, nnz. rewrite Nat2Z.id.
  unfold nnz, zeros in Hcopy, Hout. rewrite Hcopy. cbn [rbind].
  eexists. split; [reflexivity|].
  intros k Hk. cbn in Hk |- *.
  destruct (Hout k ltac:(lia)) as (E1 & E2 & E3).
  rewrite E1, E2, E3, !lookup_repeat_lt by lia. auto.
Qed.

Lemma init_zero_padding_witness :
  length (row Demo.A32) = length (data Demo.A32) /\
  length (col Demo.A32) = length (data Demo.A32) /\
  exists h0,
    init_arrays Demo.A32 = Ok h0 /\
    forall k, (length (data Demo.A32) <= k < Z.to_nat (lena h0))%nat ->
      a h0 !! k = Some 0%float /\ indc h0 !! k = Some 0 /\ indr h0 !! k = Some 0.
Proof.
  split; [reflexivity|]. split; [reflexivity|].
  apply (init_zero_padding Demo.A32); reflexivity.
Defined.

Lemma set_default_parameters_value :
  set_default_parameters (zeros 0 30) (zeros 0%float 30) =
  Ok ([0; 10; 5; 0; 0; 0; 0; 1] ++ zeros 0 22,
      [10.0%float; 10.0%float; 1e-13%float; 1e-11%float; 1e-11%float;
       3.0%float; 0.3%float; 0.5%float] ++ zeros 0%float 22).
Proof. reflexivity. Qed.

(** X7: every construction hands the factorization the same control block,
    whatever the matrix: [luparm] is zero except [lprint = 10],
    [maxcol = 5] and [keepLU = 1] (so the pivoting selector [luparm[5]] is 0,
    threshold partial pivoting), and [parmlu] is zero past its first eight
    entries [10, 10, 1e-13, 1e-11, 1e-11, 3, 0.3, 0.5]. *)
Theorem init_default_control (A : coo) (h0 : handle) :
  init_arrays A = Ok h0 ->
  luparm h0 = [0; 10; 5; 0; 0; 0; 0; 1] ++ zeros 0 22 /\
  parmlu h0 = [10.0%float; 10.0%float; 1e-13%float; 1e-11%float; 1e-11%float;
               3.0%float; 0.3%float; 0.5%float] ++ zeros 0%float 22.
Proof.
  unfold init_arrays. rewrite set_default_parameters_value. cbn [rbind].
  destruct (copy_loop _ _ _ _ _) as [[[a1 c1] r1]|e]; cbn [rbind]; [|discriminate].
  intros Heq; injection Heq as <-. cbn. auto.
Qed.

Lemma init_default_control_witness :
  exists h0, init_arrays Demo.A11 = Ok h0 /\
  luparm h0 = [0; 10; 5; 0; 0; 0; 0; 1] ++ zeros 0 22.
Proof.
  destruct (init_arrays_runs Demo.A11) as [h0 E]; [reflexivity|reflexivity|].
  exists h0. split; [exact E|]. apply (init_default_control Demo.A11 h0 E).
Defined.

(** ** The library search *)

Section Library_search.

Local Open Scope string_scope.

Example path_join_ex :
  Clusol.path_join "/opt/pkg/pylusol" "lib" = "/opt/pkg/pylusol/lib" /\
  Clusol.path_join "/opt/" "lib" = "/opt/lib" /\
  Clusol.path_join "/usr/lib" "libclusol.so" = "/usr/lib/libclusol.so".
Proof. vm_compute. auto. Qed.

Lemma first_existing_first (join : String.string -> String.string -> String.string)
    (fs : String.string -> bool) (lib : String.string) (paths : list String.string) :
  forall (k : nat) (path : String.string),
  paths !! k = Some path -> fs (join path lib) = true ->
  (forall (j : nat) (path' : String.string), (j < k)%nat -> paths !! j = Some path' ->
     fs (join path' lib) = false) ->
  Clusol.first_existing join fs lib paths = Some (join path lib).
Proof.
  induction paths as [|p0 ps IH]; intros k path Hk Hfs Hbefore; [discriminate|].
  destruct k as [|k]; cbn in Hk |- *.
  - injection Hk as ->. rewrite Hfs. reflexivity.
  - rewrite (Hbefore 0%nat p0) by (reflexivity || lia).
    apply (IH k); auto.
    intros j path' Hj Hp. apply (Hbefore (S j)); [lia|exact Hp].
Qed.

Lemma first_existing_none (join : String.string -> String.string -> String.string)
    (fs : String.string -> bool) (lib : String.string) (paths : list String.string) :
  Forall (fun path => fs (join path lib) = false) paths ->
  Clusol.first_existing join fs lib paths = None.
Proof.
  induction 1 as [|p0 ps Hp _ IH]; cbn; [reflexivity|]. now rewrite Hp.
Qed.

(** X8: on a platform other than Darwin, Linux and Windows, [_find_library]
    raises [OSError] without looking at the filesystem. *)
Theorem find_library_unsupported
    (join : String.string -> String.string -> String.string)
    (system pkg_dir repo_root : String.string)
    (fs : String.string -> bool) (make : Clusol.make_outcome)
    (fs_built : String.string -> bool) (copy_ok : bool) :
  system <> "Darwin" -> system <> "Linux" -> system <> "Windows" ->
  Clusol.find_library join system pkg_dir repo_root fs make fs_built copy_ok =
    Clusol.FindOSError.
Proof.
  intros H1 H2 H3. unfold Clusol.find_library, Clusol.lib_name.
  rewrite (proj2 (String.eqb_neq _ _) H1), (proj2 (String.eqb_neq _ _) H2),
    (proj2 (String.eqb_neq _ _) H3).
  reflexivity.
Qed.

Lemma find_library_unsupported_witness :
  "FreeBSD" <> "Darwin" /\ "FreeBSD" <> "Linux" /\ "FreeBSD" <> "Windows" /\
  Clusol.find_library Clusol.path_join "FreeBSD" "/opt/pylusol" "/opt"
    (fun _ => true) Clusol.MakeOk (fun _ => true) true = Clusol.FindOSError.
Proof.
  assert (H1 : "FreeBSD" <> "Darwin") by discriminate.
  assert (H2 : "FreeBSD" <> "Linux") by discriminate.
  assert (H3 : "FreeBSD" <> "Windows") by discriminate.
  split; [exact H1|]. split; [exact H2|]. split; [exact H3|].
  exact (find_library_unsupported _ _ _ _ _ _ _ _ H1 H2 H3).
Defined.

(** X9: on a supported platform, whatever its [os.path.join], when some
    candidate [os.path.join(path, <library name>)] exists, [_find_library]
    returns the first one in the order [pkg_dir/lib], [repo_root/src],
    [repo_root/matlab], [/usr/local/lib], [/usr/lib], and attempts no
    build. *)
Theorem find_library_first_found
    (join : String.string -> String.string -> String.string)
    (system pkg_dir repo_root lib : String.string)
    (fs : String.string -> bool) (make : Clusol.make_outcome)
    (fs_built : String.string -> bool) (copy_ok : bool)
    (k : nat) (path : String.string) :
  Clusol.lib_name system = Some lib ->
  Clusol.search_paths join pkg_dir repo_root !! k = Some path ->
  fs (join path lib) = true ->
  (forall (j : nat) (path' : String.string), (j < k)%nat ->
     Clusol.search_paths join pkg_dir repo_root !! j = Some path' ->
     fs (join path' lib) = false) ->
  Clusol.find_library join system pkg_dir repo_root fs make fs_built copy_ok =
    Clusol.LibPath (join path lib).
Proof.
  intros Hlib Hk Hfs Hbefore. unfold Clusol.find_library. rewrite Hlib.
  rewrite (first_existing_first join fs lib _ k path Hk Hfs Hbefore). reflexivity.
Qed.

Lemma find_library_first_found_witness :
  Clusol.find_library Clusol.path_join "Linux" "/opt/pylusol" "/opt"
    (fun s => String.eqb s "/usr/lib/libclusol.so") Clusol.MakeOtherOSError
    (fun _ => false) false =
  Clusol.LibPath "/usr/lib/libclusol.so".
Proof.
  apply (find_library_first_found Clusol.path_join "Linux" "/opt/pylusol" "/opt"
           "libclusol.so" _ Clusol.MakeOtherOSError (fun _ => false) false 4 "/usr/lib");
    [reflexivity|reflexivity|reflexivity|].
  intros j path' Hj Hp.
  destruct j as [|[|[|[|j]]]]; [| | | | lia]; cbn in Hp; injection Hp as <-; reflexivity.
Defined.

(** X10: on Linux or Windows, when no candidate exists, [_find_library]
    returns the bare library name (for the system loader to resolve); it
    never builds and never raises. *)
Theorem find_library_fallback
    (join : String.string -> String.string -> String.string)
    (system pkg_dir repo_root lib : String.string)
    (fs : String.string -> bool) (make : Clusol.make_outcome)
    (fs_built : String.string -> bool) (copy_ok : bool) :
  Clusol.lib_name system = Some lib -> system <> "Darwin" ->
  Forall (fun path => fs (join path lib) = false)
    (Clusol.search_paths join pkg_dir repo_root) ->
  Clusol.find_library join system pkg_dir repo_root fs make fs_built copy_ok =
    Clusol.LibPath lib.
Proof.
  intros Hlib Hd Hnone. unfold Clusol.find_library. rewrite Hlib.
  rewrite (first_existing_none _ _ _ _ Hnone).
  rewrite (proj2 (String.eqb_neq _ _) Hd). reflexivity.
Qed.

Lemma find_library_fallback_witness :
  Clusol.find_library Clusol.path_join "Linux" "/opt/pylusol" "/opt"
    (fun _ => false) Clusol.MakeOtherOSError (fun _ => true) false =
  Clusol.LibPath "libclusol.so".
Proof.
  apply find_library_fallback; [reflexivity|discriminate|].
  repeat constructor.
Defined.

(** X11: on Darwin, when no candidate exists, [_find_library] builds:
    without a makefile it returns the bare name [libclusol.dylib]; when
    [make] fails with [CalledProcessError] or [FileNotFoundError] it also
    returns the bare name; when [make] raises any other [OSError] that
    error propagates; when [make] succeeds it returns
    [pkg_dir/lib/libclusol.dylib] if the built [repo_root/src/libclusol.dylib]
    exists and the copy succeeds, raises [OSError] if the copy fails, and
    returns the bare name if nothing was built. *)
Theorem find_library_darwin
    (join : String.string -> String.string -> String.string)
    (pkg_dir repo_root : String.string)
    (fs : String.string -> bool) (make : Clusol.make_outcome)
    (fs_built : String.string -> bool) (copy_ok : bool) :
  Forall (fun path => fs (join path "libclusol.dylib") = false)
    (Clusol.search_paths join pkg_dir repo_root) ->
  Clusol.find_library join "Darwin" pkg_dir repo_root fs make fs_built copy_ok =
    if fs (join repo_root "makefile") then
      match make with
      | Clusol.MakeOk =>
          if fs_built (join (join repo_root "src") "libclusol.dylib")
          then (if copy_ok
                then Clusol.LibPath (join (join pkg_dir "lib") "libclusol.dylib")
                else Clusol.FindOSError)
          else Clusol.LibPath "libclusol.dylib"
      | Clusol.MakeCalledProcessError | Clusol.MakeFileNotFoundError =>
          Clusol.LibPath "libclusol.dylib"
      | Clusol.MakeOtherOSError => Clusol.FindOSError
      end
    else Clusol.LibPath "libclusol.dylib".
Proof.
  intros Hnone. unfold Clusol.find_library.
  change (Clusol.lib_name "Darwin") with (Some "libclusol.dylib"). cbv iota beta.
  rewrite (first_existing_none _ _ _ _ Hnone).
  change (String.eqb "Darwin" "Darwin") with true. cbv iota beta.
  unfold Clusol.build_library_macos.
  destruct (fs (join repo_root "makefile")), make,
    (fs_built (join (join repo_root "src") "libclusol.dylib")), copy_ok; reflexivity.
Qed.

Lemma find_library_darwin_witness :
  Clusol.find_library Clusol.path_join "Darwin" "/opt/pylusol" "/opt"
    (fun s => String.eqb s "/opt/makefile") Clusol.MakeOk (fun _ => true) true =
  Clusol.LibPath "/opt/pylusol/lib/libclusol.dylib" /\
  Clusol.find_library Clusol.path_join "Darwin" "/opt/pylusol" "/opt"
    (fun s => String.eqb s "/opt/makefile") Clusol.MakeOtherOSError (fun _ => true) true =
  Clusol.FindOSError.
Proof.
  assert (Hnone : Forall (fun path =>
      (fun s => String.eqb s "/opt/makefile") (Clusol.path_join path "libclusol.dylib") = false)
      (Clusol.search_paths Clusol.path_join "/opt/pylusol" "/opt"))
    by repeat constructor.
  split; rewrite (find_library_darwin _ _ _ _ _ _ _ Hnone); reflexivity.
Defined.

(** X12: [_find_library] raises [OSError] only on an unsupported platform,
    or on Darwin when [make] raises an [OSError] other than
    [FileNotFoundError] or the copy of a freshly built library fails. *)
Theorem find_library_oserror_cases
    (join : String.string -> String.string -> String.string)
    (system pkg_dir repo_root : String.string)
    (fs : String.string -> bool) (make : Clusol.make_outcome)
    (fs_built : String.string -> bool) (copy_ok : bool) :
  Clusol.find_library join system pkg_dir repo_root fs make fs_built copy_ok =
    Clusol.FindOSError ->
  Clusol.lib_name system = None \/
  (system = "Darwin" /\ (make = Clusol.MakeOtherOSError \/ copy_ok = false)).
Proof.
  unfold Clusol.find_library.
  destruct (Clusol.lib_name system) as [lib|]; [|auto].
  destruct (Clusol.first_existing _ _ _ _); [discriminate|].
  destruct (String.eqb system "Darwin") eqn:Hd; [|discriminate].
  apply String.eqb_eq in Hd.
  unfold Clusol.build_library_macos.
  destruct (negb _); [discriminate|].
  destruct make; [| discriminate | discriminate | auto].
  destruct (negb _); [discriminate|]. destruct copy_ok; [discriminate|]. auto.
Qed.

Lemma find_library_oserror_cases_witness :
  Clusol.find_library Clusol.path_join "Darwin" "/opt/pylusol" "/opt"
    (fun s => String.eqb s "/opt/makefile") Clusol.MakeOtherOSError (fun _ => true) true =
    Clusol.FindOSError /\
  (Clusol.lib_name "Darwin" = None \/
   ("Darwin" = "Darwin" /\
    (Clusol.MakeOtherOSError = Clusol.MakeOtherOSError \/ true = false))).
Proof.
  assert (H : Clusol.find_library Clusol.path_join "Darwin" "/opt/pylusol" "/opt"
    (fun s => String.eqb s "/opt/makefile") Clusol.MakeOtherOSError (fun _ => true) true =
    Clusol.FindOSError) by reflexivity.
  split; [exact H|]. exact (find_library_oserror_cases _ _ _ _ _ _ _ _ H).
Defined.

End Library_search.

